(** * terraform-provider-polygonedge: the [secrets] resource

    A shallow embedding of [pkg/secrets/secrets_resource.go].  The resource
    generates a validator's three keys through polygon-edge's [crypto] and
    [network] packages and stores six strings in the Terraform state.

    The Go packages the resource calls into (key generators, derivations,
    [tfsdk.State.Set]) are not part of the repository: they are the fields
    of the interface [Collaborators], and every statement below holds for
    all of its implementations. *)

From Stdlib Require Import ZArith.
From Stdlib.Strings Require Import Byte.
From stdpp Require Import base option list strings gmap.

(** ** Go values shared by the packages below *)

(** [[]byte] is a list of bytes; the conversion [string(b)] keeps them. *)
Abbreviation bytes := (list Byte.byte).
Abbreviation string_of_bytes := String.string_of_list_byte.

(** The interface [error]: only its method [Error()] is ever called. *)
Record error := errors_New { Error : string }.

(** A Go result pair [(v, err)], read as the caller does: [v] is used only
    when [err == nil]. *)
Inductive result (A : Type) :=
| Ok (v : A)
| Err (err : error).
Arguments Ok {A} v.
Arguments Err {A} err.

Definition result_error {A} (r : result A) : option error :=
  match r with
  | Ok _ => None
  | Err err => Some err
  end.

(** ** Package [diag] of terraform-plugin-framework *)
Module diag.

Inductive Severity := SeverityInvalid | SeverityError | SeverityWarning.

Record Diagnostic := {
  Severity_ : Severity;
  Summary : string;
  Detail : string
}.

(** [type Diagnostics []Diagnostic] *)
Abbreviation Diagnostics := (list Diagnostic).

#[global] Instance Severity_eq_dec : EqDecision Severity.
Proof. solve_decision. Defined.

#[global] Instance Diagnostic_eq_dec : EqDecision Diagnostic.
Proof. solve_decision. Defined.

Definition NewErrorDiagnostic (summary detail : string) : Diagnostic :=
  {| Severity_ := SeverityError; Summary := summary; Detail := detail |}.

Definition is_error (d : Diagnostic) : bool :=
  match Severity_ d with
  | SeverityError => true
  | _ => false
  end.

(** [diags.Contains(d)] *)
Definition Contains (diags : Diagnostics) (d : Diagnostic) : bool :=
  bool_decide (d ∈ diags).

(** [diags.Append(in...)]: each new diagnostic is added at the end unless
    an equal one is already there. *)
Fixpoint Append (diags : Diagnostics) (new : list Diagnostic) : Diagnostics :=
  match new with
  | [] => diags
  | d :: rest =>
      Append (if Contains diags d then diags else diags ++ [d]) rest
  end.

(** [diags.AddError(summary, detail)] *)
Definition AddError (diags : Diagnostics) (summary detail : string) : Diagnostics :=
  Append diags [NewErrorDiagnostic summary detail].

(** [diags.HasError()] *)
Definition HasError (diags : Diagnostics) : bool :=
  existsb is_error diags.

End diag.

(** ** Package [types]: the framework's string value *)
Module types.

Inductive String :=
| StringNull
| StringUnknown
| StringValue (s : string).


End types.

(** ** Package [resource/schema] *)
Module schema.

(** The fields of an attribute the resource sets; the others keep Go's
    zero value. *)
Record AttributeFields := {
  Required : bool;
  Optional : bool;
  Computed : bool;
  Sensitive : bool;
  Description : string
}.

(** [schema.Attribute] is an interface; these are its primitive
    implementations. *)
Inductive Attribute :=
| StringAttribute (f : AttributeFields)
| BoolAttribute (f : AttributeFields)
| Int64Attribute (f : AttributeFields)
| Float64Attribute (f : AttributeFields)
| NumberAttribute (f : AttributeFields).

Definition fields (a : Attribute) : AttributeFields :=
  match a with
  | StringAttribute f | BoolAttribute f | Int64Attribute f
  | Float64Attribute f | NumberAttribute f => f
  end.

Definition is_string (a : Attribute) : bool :=
  match a with
  | StringAttribute _ => true
  | _ => false
  end.

Definition IsComputed (a : Attribute) : bool := Computed (fields a).
Definition IsSensitive (a : Attribute) : bool := Sensitive (fields a).

Record Schema := {
  Version : Z;
  Attributes : gmap string Attribute
}.

End schema.

(** ** Package [tflog] *)
Module tflog.

Inductive Level := LevelDebug | LevelInfo | LevelWarn | LevelError.

Record Entry := { EntryLevel : Level; Message : string }.

(** [tflog.Debug(ctx, msg)] hands one debug entry to the logger.  The log
    of the model is the list of the entries handed over, in order; whether
    the logger that [ctx] carries emits them is the library's business. *)
Definition Debug (msg : string) (log : list Entry) : list Entry :=
  log ++ [{| EntryLevel := LevelDebug; Message := msg |}].

End tflog.

(** ** Package [secrets] *)
Module secrets.
Import diag.

(** [secretsDataSourceModel] maps the schema data. *)
Record secretsDataSourceModel := {
  ValidatorKeyEncoded : types.String;
  ValidatorBLSKeyEncoded : types.String;
  NetworkKeyEncoded : types.String;
  Address : types.String;
  BLSPubkey : types.String;
  NodeID : types.String
}.

(** The fields of a record under their [tfsdk] struct tags, in the order
    of the declaration. *)
Definition tfsdk_fields (m : secretsDataSourceModel)
  : list (string * types.String) :=
  [("validator_key_encoded", ValidatorKeyEncoded m);
   ("validator_bls_key_encoded", ValidatorBLSKeyEncoded m);
   ("network_key_encoded", NetworkKeyEncoded m);
   ("address", Address m);
   ("bls_pubkey", BLSPubkey m);
   ("node_id", NodeID m)].

(** *** Metadata *)

Record MetadataRequest := { ProviderTypeName : string }.
Record MetadataResponse := { TypeName : string }.

Definition Metadata (req : MetadataRequest) (resp : MetadataResponse)
  : MetadataResponse :=
  {| TypeName := ProviderTypeName req +:+ "_secrets" |}.

(** *** Schema *)

Record SchemaResponse := { Schema_ : schema.Schema }.

Definition computed (sensitive : bool) (description : string)
  : schema.Attribute :=
  schema.StringAttribute
    {| schema.Required := false;
       schema.Optional := false;
       schema.Computed := true;
       schema.Sensitive := sensitive;
       schema.Description := description |}.

Definition Schema (resp : SchemaResponse) : SchemaResponse :=
  {| Schema_ :=
      {| schema.Version := 1;
         schema.Attributes :=
           <["validator_key_encoded" :=
               computed true "Encoded validator key. Must be stored in a polygon-edge supported secrets manager."]>
          (<["validator_bls_key_encoded" :=
               computed true "Encoded validator BLS key. Must be stored in a polygon-edge supported secrets manager."]>
          (<["network_key_encoded" :=
               computed true "Encoded network key. Must be stored in a polygon-edge supported secrets manager."]>
          (<["address" := computed false "Validator address."]>
          (<["bls_pubkey" := computed false "Validator public key."]>
          (<["node_id" := computed false "Node ID."]> ∅))))) |} |}.

(** The attributes of a schema that satisfy [p], by name. *)
Definition attributes_where (p : schema.Attribute → bool) (s : schema.Schema)
  : list (string * schema.Attribute) :=
  filter (λ kv, p kv.2 = true) (map_to_list (schema.Attributes s)).

(** *** The packages the resource calls into

    [crypto] and [network] of polygon-edge, [peer] of go-libp2p and
    [tfsdk] of the plugin framework.  A key generator draws from the
    system's random source, whose state is an [Entropy]; a derivation is
    a function of its argument. *)
Class Collaborators := {
  context_Context : Type;
  tfsdk_Config : Type;
  tfsdk_Plan : Type;
  tfsdk_State : Type;
  privatestate_ProviderData : Type;
  Entropy : Type;
  ecdsa_PrivateKey : Type;
  ecdsa_PublicKey : Type;
  bls_SecretKey : Type;
  libp2p_PrivKey : Type;
  peer_ID : Type;
  edge_Address : Type;
  (** the field [PublicKey] of an [ecdsa.PrivateKey] *)
  PublicKey : ecdsa_PrivateKey → ecdsa_PublicKey;
  crypto_GenerateAndEncodeECDSAPrivateKey :
    Entropy → result (ecdsa_PrivateKey * bytes) * Entropy;
  crypto_GenerateAndEncodeBLSSecretKey :
    Entropy → result (bls_SecretKey * bytes) * Entropy;
  crypto_BLSSecretKeyToPubkeyBytes : bls_SecretKey → result bytes;
  network_GenerateAndEncodeLibp2pKey :
    Entropy → result (libp2p_PrivKey * bytes) * Entropy;
  peer_IDFromPrivateKey : libp2p_PrivKey → result peer_ID;
  crypto_PubKeyToAddress : ecdsa_PublicKey → edge_Address;
  Address_String : edge_Address → string;
  ID_String : peer_ID → string;
  (** [state.Set(ctx, val)]: the new state and the diagnostics *)
  State_Set :
    context_Context → tfsdk_State → secretsDataSourceModel →
    tfsdk_State * diag.Diagnostics
}.

Section resource.
Context `{!Collaborators}.

Record CreateRequest := {
  create_Config : tfsdk_Config;
  create_Plan : tfsdk_Plan
}.

Record ReadRequest := {
  read_State : tfsdk_State;
  read_Private : privatestate_ProviderData
}.

Record UpdateRequest := {
  update_Config : tfsdk_Config;
  update_Plan : tfsdk_Plan;
  update_State : tfsdk_State;
  update_Private : privatestate_ProviderData
}.

Record DeleteRequest := {
  delete_State : tfsdk_State;
  delete_Private : privatestate_ProviderData
}.

(** [CreateResponse], [ReadResponse], [UpdateResponse] and
    [DeleteResponse] have the same three fields. *)
Record Response := {
  State : tfsdk_State;
  Private : privatestate_ProviderData;
  Diagnostics : diag.Diagnostics
}.

(** The calls out of the package, in no particular order. *)
Inductive Call :=
| CallGenerateECDSA
| CallGenerateBLS
| CallBLSPubkey
| CallGenerateLibp2p
| CallIDFromPrivateKey
| CallPubKeyToAddress
| CallStateSet.

(** One call that was made, with the error it returned if any. *)
Record Event := { ev_call : Call; ev_error : option error }.

(** What a method can touch besides its response: the random source,
    the record of the calls made so far, and the entries handed to
    [tflog]. *)
Record World := {
  rng : Entropy;
  history : list Event;
  log : list tflog.Entry
}.

(** A method body runs on the response it was handed and the world;
    [None] says that it has executed [return]. *)
Definition Op (A : Type) : Type :=
  Response * World → option A * (Response * World).

#[global] Instance Op_ret : MRet Op := λ A a s, (Some a, s).

#[global] Instance Op_bind : MBind Op := λ A B k m s,
  match m s with
  | (Some a, s') => k a s'
  | (None, s') => (None, s')
  end.

Definition return_ {A} : Op A := λ s, (None, s).

Definition record (c : Call) (e : option error) (w : World) : World :=
  {| rng := rng w;
     history := history w ++ [{| ev_call := c; ev_error := e |}];
     log := log w |}.

(** A call of a key generator. *)
Definition generate {A} (c : Call) (g : Entropy → result A * Entropy)
  : Op (result A) :=
  λ '(resp, w),
    let '(r, e) := g (rng w) in
    (Some r,
     (resp, record c (result_error r)
              {| rng := e; history := history w; log := log w |})).

(** A call of a derivation. *)
Definition derive {A} (c : Call) (r : result A) : Op (result A) :=
  λ '(resp, w), (Some r, (resp, record c (result_error r) w)).

(** A call that cannot fail. *)
Definition compute {A} (c : Call) (v : A) : Op A :=
  λ '(resp, w), (Some v, (resp, record c None w)).

(** [resp.Diagnostics.AddError(summary, detail)] *)
Definition Diagnostics_AddError (summary detail : string) : Op unit :=
  λ '(resp, w),
    (Some (),
     ({| State := State resp;
         Private := Private resp;
         Diagnostics := AddError (Diagnostics resp) summary detail |}, w)).

(** [resp.Diagnostics.Append(diags...)] *)
Definition Diagnostics_Append (diags : diag.Diagnostics) : Op unit :=
  λ '(resp, w),
    (Some (),
     ({| State := State resp;
         Private := Private resp;
         Diagnostics := Append (Diagnostics resp) diags |}, w)).

(** [resp.Diagnostics.HasError()] *)
Definition Diagnostics_HasError : Op bool :=
  λ '(resp, w), (Some (HasError (Diagnostics resp)), (resp, w)).

(** [resp.State.Set(ctx, val)] *)
Definition resp_State_Set (ctx : context_Context)
    (val : secretsDataSourceModel) : Op diag.Diagnostics :=
  λ '(resp, w),
    let '(st, diags) := State_Set ctx (State resp) val in
    (Some diags,
     ({| State := st;
         Private := Private resp;
         Diagnostics := Diagnostics resp |},
      record CallStateSet None w)).

(** [tflog.Debug(ctx, msg)] *)
Definition tflog_Debug (ctx : context_Context) (msg : string) : Op unit :=
  λ '(resp, w),
    (Some (),
     (resp, {| rng := rng w;
               history := history w;
               log := tflog.Debug msg (log w) |})).

(** *** Create *)
Definition Create (ctx : context_Context) (_ : CreateRequest) : Op unit :=
  (* Validator Key *)
  r ← generate CallGenerateECDSA crypto_GenerateAndEncodeECDSAPrivateKey;
  match r with
  | Err err =>
      Diagnostics_AddError "Unable to generate ECDSA key" (Error err);;
      return_
  | Ok (validatorKey, validatorKeyEncoded) =>
  (* Validator BLS key *)
  r ← generate CallGenerateBLS crypto_GenerateAndEncodeBLSSecretKey;
  match r with
  | Err err =>
      Diagnostics_AddError "Unable to create generate BLS ket" (Error err);;
      return_
  | Ok (blsSecretKey, blsSecretKeyEncoded) =>
  r ← derive CallBLSPubkey (crypto_BLSSecretKeyToPubkeyBytes blsSecretKey);
  match r with
  | Err err =>
      Diagnostics_AddError "Unable to get BLS public key" (Error err);;
      return_
  | Ok pubkeyBytes =>
  (* Network key *)
  r ← generate CallGenerateLibp2p network_GenerateAndEncodeLibp2pKey;
  match r with
  | Err err =>
      Diagnostics_AddError "Unable to generate network key" (Error err);;
      return_
  | Ok (libp2pKey, libp2pKeyEncoded) =>
  r ← derive CallIDFromPrivateKey (peer_IDFromPrivateKey libp2pKey);
  match r with
  | Err err =>
      Diagnostics_AddError "Unable to get nodeID" (Error err);;
      return_
  | Ok nodeID =>
  address ← compute CallPubKeyToAddress
              (crypto_PubKeyToAddress (PublicKey validatorKey));
  diags ← resp_State_Set ctx
    {| ValidatorKeyEncoded :=
         types.StringValue (string_of_bytes validatorKeyEncoded);
       Address := types.StringValue (Address_String address);
       ValidatorBLSKeyEncoded :=
         types.StringValue (string_of_bytes blsSecretKeyEncoded);
       BLSPubkey := types.StringValue (string_of_bytes pubkeyBytes);
       NetworkKeyEncoded :=
         types.StringValue (string_of_bytes libp2pKeyEncoded);
       NodeID := types.StringValue (ID_String nodeID) |};
  Diagnostics_Append diags;;
  failed ← Diagnostics_HasError;
  if failed : bool then return_ else mret ()
  end end end end end.

(** *** Read *)
Definition Read (ctx : context_Context) (request : ReadRequest) : Op unit :=
  (* NO-OP: all there is to read is in the State, and response is
     already populated with that. *)
  tflog_Debug ctx "Reading secrets from state".

(** *** Update *)
Definition Update (ctx : context_Context) (request : UpdateRequest)
  : Op unit :=
  (* NO-OP: since this resource cannot change *)
  mret ().

(** *** Delete *)
Definition Delete (ctx : context_Context) (request : DeleteRequest)
  : Op unit :=
  tflog_Debug ctx "Removing secrets from state".

End resource.

End secrets.

(** ** Scripted collaborators

    Implementations of [Collaborators] that compute, for running the
    resource on concrete inputs: keys are numbers drawn from a counter, a
    script says which call fails and what [State.Set] reports. *)
Module Scripted.
Import diag secrets.

Record Script := {
  fail_at : option Call;
  set_diags : diag.Diagnostics
}.

#[global] Instance Call_eq_dec : EqDecision Call.
Proof. solve_decision. Defined.

Definition fails (s : Script) (c : Call) : bool :=
  bool_decide (fail_at s = Some c).

Definition answer {A} (s : Script) (c : Call) (v : A) : result A :=
  if fails s c then Err (errors_New "no entropy") else Ok v.

Definition key_bytes (tag : string) (n : nat) : bytes :=
  String.list_byte_of_string tag ++ replicate n "!"%byte.

Definition collaborators (s : Script) : Collaborators := {|
  context_Context := unit;
  tfsdk_Config := list (string * string);
  tfsdk_Plan := list (string * string);
  tfsdk_State := option secretsDataSourceModel;
  privatestate_ProviderData := unit;
  Entropy := nat;
  ecdsa_PrivateKey := nat;
  ecdsa_PublicKey := nat;
  bls_SecretKey := nat;
  libp2p_PrivKey := nat;
  peer_ID := nat;
  edge_Address := nat;
  PublicKey := λ k, 2 * k;
  crypto_GenerateAndEncodeECDSAPrivateKey := λ n,
    (answer s CallGenerateECDSA (n, key_bytes "ecdsa" n), S n);
  crypto_GenerateAndEncodeBLSSecretKey := λ n,
    (answer s CallGenerateBLS (n, key_bytes "bls" n), S n);
  crypto_BLSSecretKeyToPubkeyBytes := λ k,
    answer s CallBLSPubkey (key_bytes "blspub" k);
  network_GenerateAndEncodeLibp2pKey := λ n,
    (answer s CallGenerateLibp2p (n, key_bytes "libp2p" n), S n);
  peer_IDFromPrivateKey := λ k, answer s CallIDFromPrivateKey (3 * k);
  crypto_PubKeyToAddress := λ k, 5 * k;
  Address_String := λ a, String.string_of_list_byte (key_bytes "0x" a);
  ID_String := λ p, String.string_of_list_byte (key_bytes "Qm" p);
  State_Set := λ _ st val,
    if HasError (set_diags s) then (st, set_diags s)
    else (Some val, set_diags s)
|}.

(** Every call succeeds and the write reports nothing. *)
Definition happy : Script := {| fail_at := None; set_diags := [] |}.

(** Every call succeeds and the write reports an error. *)
Definition write_rejected : Script :=
  {| fail_at := None;
     set_diags := [NewErrorDiagnostic "Value Conversion Error" "mismatch"] |}.

Definition failing (c : Call) : Script :=
  {| fail_at := Some c; set_diags := [] |}.

(** Every call succeeds and the write reports a warning only. *)
Definition write_warned : Script :=
  {| fail_at := None;
     set_diags :=
       [{| Severity_ := SeverityWarning;
           Summary := "Deprecated";
           Detail := "attribute" |}] |}.

Definition fresh (s : Script) : @Response (collaborators s) :=
  @Build_Response (collaborators s) None () [].

Definition boot (s : Script) (seed : nat) : @World (collaborators s) :=
  @Build_World (collaborators s) seed [] [].

Definition request (s : Script) (cfg : list (string * string))
  : @CreateRequest (collaborators s) :=
  @Build_CreateRequest (collaborators s) cfg cfg.

(** [Create] on a fresh response, the random source at [seed]. *)
Definition created (s : Script) (seed : nat)
  : option () * (@Response (collaborators s) * @World (collaborators s)) :=
  @Create (collaborators s) () (request s []) (fresh s, boot s seed).



(** The response the framework hands to [Schema]: Go's zero value. *)
Definition blank_schema : SchemaResponse :=
  {| Schema_ := {| schema.Version := 0; schema.Attributes := ∅ |} |}.

End Scripted.

Import diag secrets.

(** ** Vocabulary of the statements *)
Section vocabulary.
Context `{!Collaborators}.

Definition ok (c : Call) : Event := {| ev_call := c; ev_error := None |}.

Definition failed (c : Call) (err : error) : Event :=
  {| ev_call := c; ev_error := Some err |}.

(** The calls a run from [w] to [w'] has made. *)
Definition new_events (w w' : World) : list Event :=
  drop (length (history w)) (history w').

(** Some step of the run returned an error. *)
Definition step_failed (w w' : World) : Prop :=
  Exists (λ ev, is_Some (ev_error ev)) (new_events w w').

(** What the three generators return when [Create] runs in [w]: each
    draws from the random source as the one before left it. *)
Definition keys_drawn (w : World)
  : result (ecdsa_PrivateKey * bytes) * result (bls_SecretKey * bytes)
    * result (libp2p_PrivKey * bytes) :=
  let ecdsa := crypto_GenerateAndEncodeECDSAPrivateKey (rng w) in
  let bls := crypto_GenerateAndEncodeBLSSecretKey ecdsa.2 in
  let libp2p := network_GenerateAndEncodeLibp2pKey bls.2 in
  (ecdsa.1, bls.1, libp2p.1).

(** The response handed in, with one more error diagnostic. *)
Definition rejected (resp : Response) (summary : string) (err : error)
  : Response :=
  {| State := State resp;
     Private := Private resp;
     Diagnostics := AddError (Diagnostics resp) summary (Error err) |}.

(** The world after the calls [evs], the random source left at [e]. *)
Definition advanced (w : World) (e : Entropy) (evs : list Event) : World :=
  {| rng := e; history := history w ++ evs; log := log w |}.

(** The record [Create] builds from what its steps returned. *)
Definition record_of (validatorKey : ecdsa_PrivateKey)
    (validatorKeyEncoded blsSecretKeyEncoded pubkeyBytes
       libp2pKeyEncoded : bytes) (nodeID : peer_ID)
  : secretsDataSourceModel :=
  {| ValidatorKeyEncoded :=
       types.StringValue (string_of_bytes validatorKeyEncoded);
     ValidatorBLSKeyEncoded :=
       types.StringValue (string_of_bytes blsSecretKeyEncoded);
     NetworkKeyEncoded :=
       types.StringValue (string_of_bytes libp2pKeyEncoded);
     Address :=
       types.StringValue
         (Address_String (crypto_PubKeyToAddress (PublicKey validatorKey)));
     BLSPubkey := types.StringValue (string_of_bytes pubkeyBytes);
     NodeID := types.StringValue (ID_String nodeID) |}.

Definition is_known (v : types.String) : Prop :=
  match v with
  | types.StringValue _ => True
  | _ => False
  end.

(** All six fields of a record hold a known string. *)
Definition six_known (val : secretsDataSourceModel) : Prop :=
  is_known (ValidatorKeyEncoded val) ∧
  is_known (ValidatorBLSKeyEncoded val) ∧
  is_known (NetworkKeyEncoded val) ∧
  is_known (Address val) ∧
  is_known (BLSPubkey val) ∧
  is_known (NodeID val).


(** The six steps of [Create], in the order of the source text, and the
    write that follows them. *)
Definition create_steps : list Call :=
  [CallGenerateECDSA; CallGenerateBLS; CallBLSPubkey;
   CallGenerateLibp2p; CallIDFromPrivateKey; CallPubKeyToAddress].

Definition create_calls : list Call := create_steps ++ [CallStateSet].

(** The summary of the diagnostic that names a fallible step. *)
Definition step_summary (c : Call) : option string :=
  match c with
  | CallGenerateECDSA => Some "Unable to generate ECDSA key"
  | CallGenerateBLS => Some "Unable to create generate BLS ket"
  | CallBLSPubkey => Some "Unable to get BLS public key"
  | CallGenerateLibp2p => Some "Unable to generate network key"
  | CallIDFromPrivateKey => Some "Unable to get nodeID"
  | CallPubKeyToAddress | CallStateSet => None
  end.

(** The runs of [Create] on the response [resp] in the world [w], case
    by case: a step fails and the method returns, or the record is
    handed to [State.Set]. *)
Inductive Outcome (ctx : context_Context) (resp : Response) (w : World)
  : option () * (Response * World) → Prop :=
| ecdsa_fails err e1 :
    crypto_GenerateAndEncodeECDSAPrivateKey (rng w) = (Err err, e1) →
    Outcome ctx resp w
      (None, (rejected resp "Unable to generate ECDSA key" err,
              advanced w e1 [failed CallGenerateECDSA err]))
| bls_fails validatorKey validatorKeyEncoded e1 err e2 :
    crypto_GenerateAndEncodeECDSAPrivateKey (rng w)
      = (Ok (validatorKey, validatorKeyEncoded), e1) →
    crypto_GenerateAndEncodeBLSSecretKey e1 = (Err err, e2) →
    Outcome ctx resp w
      (None, (rejected resp "Unable to create generate BLS ket" err,
              advanced w e2
                [ok CallGenerateECDSA; failed CallGenerateBLS err]))
| bls_pubkey_fails validatorKey validatorKeyEncoded e1
    blsSecretKey blsSecretKeyEncoded e2 err :
    crypto_GenerateAndEncodeECDSAPrivateKey (rng w)
      = (Ok (validatorKey, validatorKeyEncoded), e1) →
    crypto_GenerateAndEncodeBLSSecretKey e1
      = (Ok (blsSecretKey, blsSecretKeyEncoded), e2) →
    crypto_BLSSecretKeyToPubkeyBytes blsSecretKey = Err err →
    Outcome ctx resp w
      (None, (rejected resp "Unable to get BLS public key" err,
              advanced w e2
                [ok CallGenerateECDSA; ok CallGenerateBLS;
                 failed CallBLSPubkey err]))
| libp2p_fails validatorKey validatorKeyEncoded e1
    blsSecretKey blsSecretKeyEncoded e2 pubkeyBytes err e3 :
    crypto_GenerateAndEncodeECDSAPrivateKey (rng w)
      = (Ok (validatorKey, validatorKeyEncoded), e1) →
    crypto_GenerateAndEncodeBLSSecretKey e1
      = (Ok (blsSecretKey, blsSecretKeyEncoded), e2) →
    crypto_BLSSecretKeyToPubkeyBytes blsSecretKey = Ok pubkeyBytes →
    network_GenerateAndEncodeLibp2pKey e2 = (Err err, e3) →
    Outcome ctx resp w
      (None, (rejected resp "Unable to generate network key" err,
              advanced w e3
                [ok CallGenerateECDSA; ok CallGenerateBLS;
                 ok CallBLSPubkey; failed CallGenerateLibp2p err]))
| node_id_fails validatorKey validatorKeyEncoded e1
    blsSecretKey blsSecretKeyEncoded e2 pubkeyBytes
    libp2pKey libp2pKeyEncoded e3 err :
    crypto_GenerateAndEncodeECDSAPrivateKey (rng w)
      = (Ok (validatorKey, validatorKeyEncoded), e1) →
    crypto_GenerateAndEncodeBLSSecretKey e1
      = (Ok (blsSecretKey, blsSecretKeyEncoded), e2) →
    crypto_BLSSecretKeyToPubkeyBytes blsSecretKey = Ok pubkeyBytes →
    network_GenerateAndEncodeLibp2pKey e2
      = (Ok (libp2pKey, libp2pKeyEncoded), e3) →
    peer_IDFromPrivateKey libp2pKey = Err err →
    Outcome ctx resp w
      (None, (rejected resp "Unable to get nodeID" err,
              advanced w e3
                [ok CallGenerateECDSA; ok CallGenerateBLS;
                 ok CallBLSPubkey; ok CallGenerateLibp2p;
                 failed CallIDFromPrivateKey err]))
| record_set validatorKey validatorKeyEncoded e1
    blsSecretKey blsSecretKeyEncoded e2 pubkeyBytes
    libp2pKey libp2pKeyEncoded e3 nodeID st diags :
    crypto_GenerateAndEncodeECDSAPrivateKey (rng w)
      = (Ok (validatorKey, validatorKeyEncoded), e1) →
    crypto_GenerateAndEncodeBLSSecretKey e1
      = (Ok (blsSecretKey, blsSecretKeyEncoded), e2) →
    crypto_BLSSecretKeyToPubkeyBytes blsSecretKey = Ok pubkeyBytes →
    network_GenerateAndEncodeLibp2pKey e2
      = (Ok (libp2pKey, libp2pKeyEncoded), e3) →
    peer_IDFromPrivateKey libp2pKey = Ok nodeID →
    State_Set ctx (State resp)
      (record_of validatorKey validatorKeyEncoded blsSecretKeyEncoded
         pubkeyBytes libp2pKeyEncoded nodeID) = (st, diags) →
    Outcome ctx resp w
      (if HasError (Append (Diagnostics resp) diags) then None else Some (),
       ({| State := st;
           Private := Private resp;
           Diagnostics := Append (Diagnostics resp) diags |},
        advanced w e3 (ok <$> create_calls))).

(** Running a method several times, each run on the response and the
    world the previous one left. *)
Definition repeatedly {Req} (method : Req → Op ())
    (requests : list Req) (s : Response * World) : Response * World :=
  foldl (λ s request, (method request s).2) s requests.


(** The write of the record returned error diagnostics, and [resp'] is
    what [Create] makes of them. *)
Definition write_failed (ctx : context_Context) (resp resp' : Response)
  : Prop :=
  ∃ val, six_known val ∧
    HasError (State_Set ctx (State resp) val).2 = true ∧
    State resp' = (State_Set ctx (State resp) val).1 ∧
    Diagnostics resp'
      = Append (Diagnostics resp) (State_Set ctx (State resp) val).2.

#[global] Instance step_failed_dec (w w' : World) : Decision (step_failed w w').
Proof. unfold step_failed. apply _. Defined.

End vocabulary.

(** ** Vocabulary of the statements on the whole resource *)
Section resource_vocabulary.
Context `{!Collaborators}.

(** The three key encodings the generators return in [w], as [Create]
    stores them. *)
Definition secret_values (w : World) : list types.String :=
  match keys_drawn w with
  | (Ok (_, validatorKeyEncoded), Ok (_, blsSecretKeyEncoded),
     Ok (_, libp2pKeyEncoded)) =>
      [types.StringValue (string_of_bytes validatorKeyEncoded);
       types.StringValue (string_of_bytes blsSecretKeyEncoded);
       types.StringValue (string_of_bytes libp2pKeyEncoded)]
  | _ => []
  end.

(** The three values derived from the keys drawn in [w]: the address of
    the signing key, the BLS public key, the peer identifier. *)
Definition public_values (w : World) : list types.String :=
  match keys_drawn w with
  | (Ok (validatorKey, _), Ok (blsSecretKey, _), Ok (libp2pKey, _)) =>
      match crypto_BLSSecretKeyToPubkeyBytes blsSecretKey,
            peer_IDFromPrivateKey libp2pKey with
      | Ok pubkeyBytes, Ok nodeID =>
          [types.StringValue
             (Address_String
                (crypto_PubKeyToAddress (PublicKey validatorKey)));
           types.StringValue (string_of_bytes pubkeyBytes);
           types.StringValue (ID_String nodeID)]
      | _, _ => []
      end
  | _ => []
  end.

(** The bytes of a known string value, as [[]byte(s)] gives them. *)
Definition bytes_of (v : types.String) : option bytes :=
  match v with
  | types.StringValue s => Some (String.list_byte_of_string s)
  | _ => None
  end.

End resource_vocabulary.

(** ** Facts about diagnostics *)

Lemma Append_incl (new ds : diag.Diagnostics) (d : Diagnostic) :
  d ∈ ds → d ∈ Append ds new.
Proof.
  revert ds. induction new as [|n new IH]; intros ds Hd; simpl; [done|].
  apply IH. destruct (Contains ds n); [done|].
  apply elem_of_app. by left.
Qed.

Lemma Append_new (new ds : diag.Diagnostics) (d : Diagnostic) :
  d ∈ new → d ∈ Append ds new.
Proof.
  revert ds. induction new as [|n new IH]; intros ds Hd; simpl.
  - by apply elem_of_nil in Hd.
  - apply elem_of_cons in Hd as [->|Hd]; [|by apply IH].
    apply Append_incl. unfold Contains. case_bool_decide; [done|].
    apply elem_of_app. right. by apply list_elem_of_singleton.
Qed.

Lemma HasError_elem (ds : diag.Diagnostics) :
  HasError ds = true ↔ ∃ d, d ∈ ds ∧ is_error d = true.
Proof.
  unfold HasError. rewrite existsb_exists. split.
  - intros (d & Hin & He). exists d. by rewrite list_elem_of_In.
  - intros (d & Hin & He). exists d. by rewrite <- list_elem_of_In.
Qed.

Lemma Append_elem (new ds : diag.Diagnostics) (d : Diagnostic) :
  d ∈ Append ds new → d ∈ ds ∨ d ∈ new.
Proof.
  revert ds. induction new as [|n new IH]; intros ds Hd; simpl in *.
  - by left.
  - apply IH in Hd as [Hd|Hd].
    + destruct (Contains ds n); [by left|].
      apply elem_of_app in Hd as [Hd|Hd]; [by left|].
      right. apply list_elem_of_singleton in Hd as ->. apply elem_of_cons. by left.
    + right. apply elem_of_cons. by right.
Qed.

Lemma HasError_Append (ds new : diag.Diagnostics) :
  HasError (Append ds new) = HasError ds || HasError new.
Proof.
  apply eq_true_iff_eq. rewrite orb_true_iff, !HasError_elem. split.
  - intros (d & Hin & He). apply Append_elem in Hin as [Hin|Hin]; eauto.
  - intros [(d & Hin & He)|(d & Hin & He)]; exists d; split; try done.
    + by apply Append_incl.
    + by apply Append_new.
Qed.

Lemma HasError_AddError (ds : diag.Diagnostics) (summary detail : string) :
  HasError (AddError ds summary detail) = true.
Proof.
  unfold AddError. rewrite HasError_Append. simpl. apply orb_true_r.
Qed.


(** Closes a goal [Outcome ctx resp w run] with a proof of one of its
    cases, up to the bracketing of the history. *)
Ltac by_case H :=
  lazymatch goal with
  | |- Outcome _ _ _ ?run =>
      lazymatch type of H with
      | Outcome _ _ _ ?case =>
          replace run with case;
          [ exact H
          | unfold return_, rejected, advanced, record, create_calls,
              create_steps, ok, failed;
            simpl; rewrite <- ?app_assoc; reflexivity ]
      end
  end.

(** ** The runs of [Create] *)
Section create_runs.
Context `{!Collaborators}.

Lemma new_events_advanced (w : World) (e : Entropy) (evs : list Event) :
  new_events w (advanced w e evs) = evs.
Proof. unfold new_events, advanced. simpl. apply drop_app_length. Qed.

(** Every run of [Create] is one of the six cases of [Outcome]. *)
Lemma Create_outcome (ctx : context_Context) (req : CreateRequest)
    (resp : Response) (w : World) :
  Outcome ctx resp w (Create ctx req (resp, w)).
Proof.
  unfold Create, mbind, Op_bind, generate, derive, compute.
  destruct (crypto_GenerateAndEncodeECDSAPrivateKey (rng w))
    as [[[validatorKey validatorKeyEncoded]|err] e1] eqn:Hecdsa; simpl;
    [|by_case (ecdsa_fails ctx resp w _ _ Hecdsa)].
  destruct (crypto_GenerateAndEncodeBLSSecretKey e1)
    as [[[blsSecretKey blsSecretKeyEncoded]|err] e2] eqn:Hbls; simpl;
    [|by_case (bls_fails ctx resp w _ _ _ _ _ Hecdsa Hbls)].
  destruct (crypto_BLSSecretKeyToPubkeyBytes blsSecretKey)
    as [pubkeyBytes|err] eqn:Hpub; simpl;
    [|by_case (bls_pubkey_fails ctx resp w _ _ _ _ _ _ _ Hecdsa Hbls Hpub)].
  destruct (network_GenerateAndEncodeLibp2pKey e2)
    as [[[libp2pKey libp2pKeyEncoded]|err] e3] eqn:Hnet; simpl;
    [|by_case (libp2p_fails ctx resp w _ _ _ _ _ _ _ _ _
                 Hecdsa Hbls Hpub Hnet)].
  destruct (peer_IDFromPrivateKey libp2pKey)
    as [nodeID|err] eqn:Hid; simpl;
    [|by_case (node_id_fails ctx resp w _ _ _ _ _ _ _ _ _ _ _
                 Hecdsa Hbls Hpub Hnet Hid)].
  unfold resp_State_Set. simpl.
  destruct (State_Set ctx (State resp) _) as [st diags] eqn:Hset. simpl.
  pose proof (record_set ctx resp w _ _ _ _ _ _ _ _ _ _ _ st diags
                Hecdsa Hbls Hpub Hnet Hid Hset) as Hrun.
  unfold Diagnostics_HasError. simpl.
  destruct (HasError (Append (Diagnostics resp) diags)); by_case Hrun.
Qed.

End create_runs.

(** Splits a run [Hrun : Create ctx req (resp, w) = _] into the cases of
    [Outcome]. *)
Ltac create_cases ctx req resp w Hrun :=
  let Hcase := fresh "Hcase" in
  pose proof (Create_outcome ctx req resp w) as Hcase;
  rewrite Hrun in Hcase; inversion Hcase; subst; clear Hcase.

(** Some event of an explicit list carries an error. *)
Ltac some_event_failed :=
  solve [ repeat first
            [ apply Exists_cons_hd; by eexists
            | apply Exists_cons_tl ] ].

(** No event of an explicit list of [ok] events carries an error. *)
Ltac no_event_failed H :=
  repeat (apply Exists_cons in H as [H|H];
          [by apply is_Some_None in H|]);
  by apply Exists_nil in H.

(** The only event with an error at index [i] of an explicit list is the
    last one. *)
Ltac last_event i Hi Hev :=
  repeat (destruct i as [|i]; simpl in Hi;
          [ injection Hi as <-; first [done | by apply is_Some_None in Hev]
          | ]);
  done.

(** The member of an explicit list of events that carries an error. *)
Ltac which_event Hin Herr :=
  repeat (apply elem_of_cons in Hin as [->|Hin];
          [ first [ discriminate Herr | injection Herr as -> ] | ]);
  try by apply elem_of_nil in Hin.

(** Rewrites with what the generators returned. *)
Ltac use_draws :=
  repeat lazymatch goal with
    | Hdraw : ?f ?e = (_, _) |- context [?f ?e] => rewrite Hdraw; simpl
    end.


(** ** Create *)
Section create_properties.
Context `{!Collaborators}.

Lemma no_step_failed_ok (w : World) (e : Entropy) (calls : list Call) :
  ¬ step_failed w (advanced w e (ok <$> calls)).
Proof.
  unfold step_failed. rewrite new_events_advanced.
  rewrite Exists_fmap, Exists_exists. intros (c & _ & Hc).
  by apply is_Some_None in Hc.
Qed.

Lemma record_of_known validatorKey validatorKeyEncoded blsSecretKeyEncoded
    pubkeyBytes libp2pKeyEncoded nodeID :
  six_known (record_of validatorKey validatorKeyEncoded blsSecretKeyEncoded
               pubkeyBytes libp2pKeyEncoded nodeID).
Proof. by repeat split. Qed.

(** C1. Create is all-or-nothing: when a generation or derivation step
    returns an error, the method returns with an error diagnostic in the
    response and the state of the response is the one handed in; and in
    every run the state is either the one handed in or the result of a
    single [State.Set] of a record whose six fields are all set. *)
Theorem Create_all_or_nothing (ctx : context_Context) (req : CreateRequest)
    (resp resp' : Response) (w w' : World) (r : option ()) :
  Create ctx req (resp, w) = (r, (resp', w')) →
  (step_failed w w' →
     HasError (Diagnostics resp') = true ∧ State resp' = State resp ∧
     r = None) ∧
  (State resp' = State resp ∨
   ∃ val, six_known val ∧
          State resp' = (State_Set ctx (State resp) val).1).
Proof.
  intros Hrun. pose proof (Create_outcome ctx req resp w) as Hcase.
  rewrite Hrun in Hcase.
  inversion Hcase; subst; simpl;
    try (split; [intros _; split; [apply HasError_AddError|done]|by left]).
  split.
  - intros Hfail. destruct (no_step_failed_ok w _ create_calls Hfail).
  - right. eexists. split; [apply record_of_known|].
    match goal with Hset : State_Set _ _ _ = _ |- _ => by rewrite Hset end.
Qed.


(** C3. [Create] calls out in the order of [create_calls]: the ECDSA
    generator, the BLS generator, the BLS public-key derivation, the
    libp2p generator, the peer-identifier derivation, the address
    derivation, then the write.  A call that returned an error is the
    last call of the run; a run in which no call returned an error made
    all of them, and each generator drew from the random source as the
    one before left it. *)
Theorem Create_step_order (ctx : context_Context) (req : CreateRequest)
    (resp resp' : Response) (w w' : World) (r : option ()) :
  Create ctx req (resp, w) = (r, (resp', w')) →
  history w' = history w ++ new_events w w' ∧
  (ev_call <$> new_events w w') `prefix_of` create_calls ∧
  (∀ i ev, new_events w w' !! i = Some ev → is_Some (ev_error ev) →
           S i = length (new_events w w')) ∧
  (¬ step_failed w w' →
     ev_call <$> new_events w w' = create_calls ∧
     rng w' =
       (network_GenerateAndEncodeLibp2pKey
          (crypto_GenerateAndEncodeBLSSecretKey
             (crypto_GenerateAndEncodeECDSAPrivateKey (rng w)).2).2).2).
Proof.
  intros Hrun.
  create_cases ctx req resp w Hrun; unfold step_failed;
    rewrite new_events_advanced.
  all: split; [unfold advanced; simpl; done|].
  all: split; [eexists; simpl; reflexivity|].
  all: split; [intros i ev Hi Hev; last_event i Hi Hev|].
  all: intros Hno.
  all: try (destruct Hno; some_event_failed).
  split; [reflexivity|]. simpl. use_draws. reflexivity.
Qed.

(** C4, as the code has it. With no error in the response handed in,
    [Create] reports an error exactly when one of its steps returned an
    error or, none having done so, the write of the record returned error
    diagnostics.  A step that returned an error is the last call of the
    run, the method returns at once, and the response is the one handed
    in plus one error diagnostic whose summary names that step and whose
    detail is the error's message. *)
Theorem Create_failure_cases (ctx : context_Context) (req : CreateRequest)
    (resp resp' : Response) (w w' : World) (r : option ()) :
  HasError (Diagnostics resp) = false →
  Create ctx req (resp, w) = (r, (resp', w')) →
  (HasError (Diagnostics resp') = true ↔
     step_failed w w' ∨ (¬ step_failed w w' ∧ write_failed ctx resp resp')) ∧
  (∀ ev err, ev ∈ new_events w w' → ev_error ev = Some err →
     last (new_events w w') = Some ev ∧ r = None ∧
     ∃ summary, step_summary (ev_call ev) = Some summary ∧
                resp' = rejected resp summary err).
Proof.
  intros Hclean Hrun.
  create_cases ctx req resp w Hrun; unfold step_failed;
    rewrite new_events_advanced; (split; [split|]).
  all: try (intros _; left; some_event_failed).
  all: try (intros _; apply HasError_AddError).
  all: try (intros ev err' Hin Herr; which_event Hin Herr;
            split; [done|]; split; [done|]; by eexists).
  - simpl. rewrite HasError_Append, Hclean. simpl. intros Hdiags. right.
    split; [intros Hany; no_event_failed Hany|].
    eexists. split; [apply record_of_known|].
    lazymatch goal with
    | Hset : State_Set _ _ _ = _ |- _ => by rewrite Hset
    end.
  - intros [Hany|[_ (val & _ & Herr & _ & Hdiags)]]; [no_event_failed Hany|].
    rewrite Hdiags, HasError_Append, Herr. apply orb_true_r.
  - intros ev err' Hin Herr. which_event Hin Herr.
Qed.

(** C9. [Create] does not look at its request: two runs on the same
    response in which the three generators return the same values end
    with the same response, whatever the two requests and whatever else
    differs between the two worlds. *)
Theorem Create_ignores_request (ctx : context_Context)
    (req1 req2 : CreateRequest) (resp : Response) (w1 w2 : World) :
  keys_drawn w1 = keys_drawn w2 →
  (Create ctx req1 (resp, w1)).1 = (Create ctx req2 (resp, w2)).1 ∧
  (Create ctx req1 (resp, w1)).2.1 = (Create ctx req2 (resp, w2)).2.1.
Proof.
  intros Hkeys. unfold keys_drawn in Hkeys.
  pose proof (Create_outcome ctx req1 resp w1) as Hcase1.
  pose proof (Create_outcome ctx req2 resp w2) as Hcase2.
  destruct Hcase1; destruct Hcase2; simpl;
    repeat lazymatch goal with
      | Hdraw : ?f ?e = (_, _), Hk : context [?f ?e] |- _ =>
          rewrite Hdraw in Hk; simpl in Hk
      end;
    simplify_eq;
    repeat lazymatch goal with
      | Ha : ?t = _, Hb : ?t = _ |- _ => rewrite Ha in Hb; simplify_eq
      end;
    done.
Qed.

(** C10. When none of the steps of [Create] returned an error, the record
    is handed to [State.Set] and the diagnostics that this write returns
    are appended to the response; if there is an error among them, the
    response reports an error and the method has returned. *)
Theorem Create_write_failure (ctx : context_Context) (req : CreateRequest)
    (resp resp' : Response) (w w' : World) (r : option ()) :
  Create ctx req (resp, w) = (r, (resp', w')) →
  ¬ step_failed w w' →
  ∃ val, six_known val ∧
    State resp' = (State_Set ctx (State resp) val).1 ∧
    Diagnostics resp'
      = Append (Diagnostics resp) (State_Set ctx (State resp) val).2 ∧
    (HasError (State_Set ctx (State resp) val).2 = true →
       HasError (Diagnostics resp') = true ∧ r = None).
Proof.
  intros Hrun.
  create_cases ctx req resp w Hrun; unfold step_failed;
    rewrite new_events_advanced; intros Hno;
    try (destruct Hno; some_event_failed).
  eexists. split; [apply record_of_known|].
  lazymatch goal with
  | Hset : State_Set _ _ _ = _ |- _ => rewrite Hset
  end. simpl.
  split; [done|]. split; [done|]. intros Herr.
  rewrite HasError_Append, Herr, orb_true_r. done.
Qed.

End create_properties.

(** ** Read, Update, Delete *)
Section passive_methods.
Context `{!Collaborators}.

(** C5. Read leaves the response it is handed, and so the stored record,
    as it is: after any number of Read calls, whatever their requests,
    the response is the one before the first call, which is also what
    zero calls leave; the random source is not drawn from and no
    collaborator is called. *)
Theorem Read_leaves_record (ctx : context_Context)
    (requests : list ReadRequest) (resp : Response) (w : World) :
  (repeatedly (Read ctx) requests (resp, w)).1 = resp ∧
  State (repeatedly (Read ctx) requests (resp, w)).1
    = State (repeatedly (Read ctx) [] (resp, w)).1 ∧
  rng (repeatedly (Read ctx) requests (resp, w)).2 = rng w ∧
  history (repeatedly (Read ctx) requests (resp, w)).2 = history w.
Proof.
  revert w. induction requests as [|request requests IH]; intros w.
  - done.
  - exact (IH (Read ctx request (resp, w)).2.2).
Qed.

(** C6. Update leaves the response it is handed, and so the stored
    record, as it is, for every request; it touches nothing else either,
    and so does any sequence of Update calls. *)
Theorem Update_leaves_record (ctx : context_Context) (request : UpdateRequest)
    (requests : list UpdateRequest) (resp : Response) (w : World) :
  Update ctx request (resp, w) = (Some (), (resp, w)) ∧
  repeatedly (Update ctx) requests (resp, w) = (resp, w).
Proof.
  split; [done|].
  induction requests as [|r requests IH]; [done|].
  unfold repeatedly in *. simpl. exact IH.
Qed.

(** C7. Read, Update and Delete leave the diagnostics of the response as
    they were, so none of them reports an error that was not there; and
    all Delete does is write one debug line to the log: the response,
    the random source and the record of calls are as before. *)
Theorem passive_methods_report_nothing (ctx : context_Context)
    (rd : ReadRequest) (up : UpdateRequest) (dl : DeleteRequest)
    (resp : Response) (w : World) :
  Diagnostics (Read ctx rd (resp, w)).2.1 = Diagnostics resp ∧
  Diagnostics (Update ctx up (resp, w)).2.1 = Diagnostics resp ∧
  Diagnostics (Delete ctx dl (resp, w)).2.1 = Diagnostics resp ∧
  HasError (Diagnostics (Read ctx rd (resp, w)).2.1)
    = HasError (Diagnostics resp) ∧
  HasError (Diagnostics (Update ctx up (resp, w)).2.1)
    = HasError (Diagnostics resp) ∧
  HasError (Diagnostics (Delete ctx dl (resp, w)).2.1)
    = HasError (Diagnostics resp) ∧
  Delete ctx dl (resp, w)
    = (Some (),
       (resp, {| rng := rng w;
                 history := history w;
                 log := log w ++ [{| tflog.EntryLevel := tflog.LevelDebug;
                                     tflog.Message := "Removing secrets from state" |}] |})).
Proof. repeat split. Qed.

End passive_methods.

(** ** Schema and Metadata *)

(** C8 as the specification words it does not hold: the attributes
    marked sensitive are not two. *)
Lemma Schema_sensitive_not_two :
  length (attributes_where schema.IsSensitive
            (Schema_ (Schema Scripted.blank_schema))) ≠ 2.
Proof. vm_compute. discriminate. Qed.

(** C8, as the code has it. The schema has exactly six attributes, each a
    computed string attribute; exactly three of them are sensitive, the
    three encoded keys; and the type name is the provider's type name
    followed by [_secrets]. *)
Theorem Schema_six_computed_three_sensitive (resp : SchemaResponse)
    (req : MetadataRequest) (mresp : MetadataResponse) :
  size (schema.Attributes (Schema_ (Schema resp))) = 6 ∧
  dom (schema.Attributes (Schema_ (Schema resp)))
    = list_to_set ["validator_key_encoded"; "validator_bls_key_encoded";
                   "network_key_encoded"; "address"; "bls_pubkey"; "node_id"] ∧
  map_Forall (λ _ a, schema.is_string a = true ∧ schema.IsComputed a = true)
    (schema.Attributes (Schema_ (Schema resp))) ∧
  length (attributes_where schema.IsSensitive (Schema_ (Schema resp))) = 3 ∧
  map_Forall
    (λ name a,
       schema.IsSensitive a = true ↔
       name ∈ ["validator_key_encoded"; "validator_bls_key_encoded";
               "network_key_encoded"])
    (schema.Attributes (Schema_ (Schema resp))) ∧
  TypeName (Metadata req mresp) = ProviderTypeName req +:+ "_secrets".
Proof.
  split; [by vm_compute|].
  split; [by apply (bool_decide_unpack _); vm_compute|].
  split; [by apply (bool_decide_unpack _); vm_compute|].
  split; [by vm_compute|].
  split; [by apply (bool_decide_unpack _); vm_compute|].
  done.
Qed.

(** ** Runs on scripted collaborators *)

(** C4 as the specification words it does not hold: with every step
    succeeding and [State.Set] rejecting the record, [Create] reports an
    error although no step has failed. *)
Lemma Create_fails_without_step_failure :
  HasError (Diagnostics (Scripted.fresh Scripted.write_rejected)) = false ∧
  HasError (Diagnostics (Scripted.created Scripted.write_rejected 1).2.1) = true ∧
  ¬ step_failed (Scripted.boot Scripted.write_rejected 1)
      (Scripted.created Scripted.write_rejected 1).2.2.
Proof.
  split; [reflexivity|]. split; [vm_compute; reflexivity|].
  apply (bool_decide_unpack _). vm_compute. exact I.
Qed.

(** The signing-key generator fails: an error is reported and the state
    stays empty. *)
Lemma Create_all_or_nothing_witness :
  HasError (Diagnostics
              (Scripted.created (Scripted.failing CallGenerateECDSA) 7).2.1) = true ∧
  State (Scripted.created (Scripted.failing CallGenerateECDSA) 7).2.1 = None ∧
  (Scripted.created (Scripted.failing CallGenerateECDSA) 7).1 = None.
Proof.
  refine (proj1
            (@Create_all_or_nothing
               (Scripted.collaborators (Scripted.failing CallGenerateECDSA))
               () (Scripted.request _ []) (Scripted.fresh _) _
               (Scripted.boot _ 7) _ _ eq_refl) _).
  apply (bool_decide_unpack _). vm_compute. exact I.
Defined.



(** The BLS public-key derivation fails: three calls were made, the last
    one being the one that failed. *)
Lemma Create_step_order_witness :
  ev_call <$> new_events (Scripted.boot (Scripted.failing CallBLSPubkey) 1)
                (Scripted.created (Scripted.failing CallBLSPubkey) 1).2.2
    = [CallGenerateECDSA; CallGenerateBLS; CallBLSPubkey] ∧
  (ev_call <$> new_events (Scripted.boot (Scripted.failing CallBLSPubkey) 1)
                 (Scripted.created (Scripted.failing CallBLSPubkey) 1).2.2)
    `prefix_of` create_calls.
Proof.
  split; [reflexivity|].
  exact (proj1 (proj2
           (@Create_step_order
              (Scripted.collaborators (Scripted.failing CallBLSPubkey))
              () (Scripted.request _ []) (Scripted.fresh _) _
              (Scripted.boot _ 1) _ _ eq_refl))).
Defined.

(** The network-key generator fails: the diagnostic names that step. *)
Lemma Create_failure_cases_witness :
  (Scripted.created (Scripted.failing CallGenerateLibp2p) 1).2.1
    = rejected (Scripted.fresh (Scripted.failing CallGenerateLibp2p))
        "Unable to generate network key" (errors_New "no entropy").
Proof.
  destruct (proj2
              (@Create_failure_cases
                 (Scripted.collaborators (Scripted.failing CallGenerateLibp2p))
                 () (Scripted.request _ []) (Scripted.fresh _) _
                 (Scripted.boot _ 1) _ _ eq_refl eq_refl)
              (failed CallGenerateLibp2p (errors_New "no entropy"))
              (errors_New "no entropy"))
    as (_ & _ & summary & Hsummary & Hresp).
  - vm_compute. apply list_elem_of_further, list_elem_of_further,
      list_elem_of_further, list_elem_of_here.
  - reflexivity.
  - injection Hsummary as <-. exact Hresp.
Defined.

(** Two requests, two worlds with the same random source: one response. *)
Lemma Create_ignores_request_witness :
  (@Create (Scripted.collaborators Scripted.happy) ()
     (Scripted.request _ [("address", "0xabc")])
     (Scripted.fresh _, Scripted.boot _ 3)).2.1
  = (@Create (Scripted.collaborators Scripted.happy) ()
       (Scripted.request _ [])
       (Scripted.fresh _,
        record CallStateSet None (Scripted.boot _ 3))).2.1.
Proof.
  apply (@Create_ignores_request (Scripted.collaborators Scripted.happy)).
  reflexivity.
Defined.

(** Every step succeeds and [State.Set] rejects the record: the run ends
    with an error and the method has returned. *)
Lemma Create_write_failure_witness :
  ∃ val, six_known val ∧
    State (Scripted.created Scripted.write_rejected 1).2.1
      = (@State_Set (Scripted.collaborators Scripted.write_rejected) ()
           (State (Scripted.fresh Scripted.write_rejected)) val).1 ∧
    Diagnostics (Scripted.created Scripted.write_rejected 1).2.1
      = Append (Diagnostics (Scripted.fresh Scripted.write_rejected))
          (@State_Set (Scripted.collaborators Scripted.write_rejected) ()
             (State (Scripted.fresh Scripted.write_rejected)) val).2 ∧
    (HasError
       (@State_Set (Scripted.collaborators Scripted.write_rejected) ()
          (State (Scripted.fresh Scripted.write_rejected)) val).2 = true →
     HasError (Diagnostics (Scripted.created Scripted.write_rejected 1).2.1)
       = true ∧
     (Scripted.created Scripted.write_rejected 1).1 = None).
Proof.
  apply (@Create_write_failure (Scripted.collaborators Scripted.write_rejected)
           () (Scripted.request _ []) (Scripted.fresh _) _
           (Scripted.boot _ 1) (Scripted.created Scripted.write_rejected 1).2.2
           _ eq_refl).
  apply (bool_decide_unpack _). vm_compute. exact I.
Defined.

(** ** Further properties of Create *)
Section create_further.
Context `{!Collaborators}.

(** X1. [Create] only adds to the diagnostics of the response: every
    diagnostic that was there before the call is there after it, and a
    response that reported an error still reports one. *)
Theorem Create_keeps_diagnostics (ctx : context_Context) (req : CreateRequest)
    (resp resp' : Response) (w w' : World) (r : option ()) :
  Create ctx req (resp, w) = (r, (resp', w')) →
  (∀ d, d ∈ Diagnostics resp → d ∈ Diagnostics resp') ∧
  (HasError (Diagnostics resp) = true → HasError (Diagnostics resp') = true).
Proof.
  intros Hrun.
  assert (∀ d, d ∈ Diagnostics resp → d ∈ Diagnostics resp') as Hkept.
  { create_cases ctx req resp w Hrun; intros d Hd; simpl;
      by apply Append_incl. }
  split; [exact Hkept|].
  rewrite !HasError_elem. intros (d & Hd & Herr). exists d. auto.
Qed.

(** X2. [Create] leaves the private data of the response and the log as
    they are, keeps the calls recorded before it, and makes at least one
    and at most seven calls. *)
Theorem Create_frame (ctx : context_Context) (req : CreateRequest)
    (resp resp' : Response) (w w' : World) (r : option ()) :
  Create ctx req (resp, w) = (r, (resp', w')) →
  Private resp' = Private resp ∧
  log w' = log w ∧
  history w `prefix_of` history w' ∧
  1 ≤ length (new_events w w') ≤ 7.
Proof.
  intros Hrun.
  create_cases ctx req resp w Hrun; rewrite new_events_advanced; simpl;
    (split; [done|]); (split; [done|]); (split; [by eexists|]); lia.
Qed.

(** X3. Diagnostics of the write that are not errors do not fail
    [Create]: when the response handed in reports no error, no step
    returns one and [State.Set] returns none, the method runs to its end,
    the response reports no error, and what [State.Set] returned (its
    warnings) is in the response. *)
Theorem Create_tolerates_warnings (ctx : context_Context)
    (req : CreateRequest) (resp resp' : Response) (w w' : World)
    (r : option ()) :
  Create ctx req (resp, w) = (r, (resp', w')) →
  HasError (Diagnostics resp) = false →
  ¬ step_failed w w' →
  ∃ val, six_known val ∧
    State resp' = (State_Set ctx (State resp) val).1 ∧
    (HasError (State_Set ctx (State resp) val).2 = false →
       r = Some () ∧
       HasError (Diagnostics resp') = false ∧
       ∀ d, d ∈ (State_Set ctx (State resp) val).2 → d ∈ Diagnostics resp').
Proof.
  intros Hrun Hclean.
  create_cases ctx req resp w Hrun; unfold step_failed;
    rewrite new_events_advanced; intros Hno;
    try (destruct Hno; some_event_failed).
  eexists. split; [apply record_of_known|].
  lazymatch goal with
  | Hset : State_Set _ _ _ = _ |- _ => rewrite Hset
  end. simpl.
  split; [done|]. intros Hwarn.
  rewrite HasError_Append, Hclean, Hwarn. simpl.
  split; [done|]. split; [done|]. intros d Hd. by apply Append_new.
Qed.

End create_further.

(** ** The schema and the record *)

(** Membership in an explicit list. *)
Ltac in_list :=
  solve [ unfold tfsdk_fields, record_of; simpl;
          repeat first [ apply list_elem_of_here
                       | apply list_elem_of_further ] ].

(** The attributes of the schema, one by one. *)
Lemma Schema_attribute_cases (resp : SchemaResponse) (name : string)
    (a : schema.Attribute) :
  schema.Attributes (Schema_ (Schema resp)) !! name = Some a →
  (name, schema.IsSensitive a)
    ∈ [("validator_key_encoded", true); ("validator_bls_key_encoded", true);
       ("network_key_encoded", true); ("address", false);
       ("bls_pubkey", false); ("node_id", false)].
Proof.
  intros Hlookup. apply elem_of_map_to_list in Hlookup.
  assert (Forall (λ kv : string * schema.Attribute,
                    (kv.1, schema.IsSensitive kv.2)
                      ∈ [("validator_key_encoded", true);
                         ("validator_bls_key_encoded", true);
                         ("network_key_encoded", true); ("address", false);
                         ("bls_pubkey", false); ("node_id", false)])
            (map_to_list (schema.Attributes (Schema_ (Schema resp)))))
    as Hall.
  { apply (bool_decide_unpack _). vm_compute. exact I. }
  rewrite Forall_forall in Hall. exact (Hall _ Hlookup).
Qed.

(** X4. The schema and the record agree: the names of the attributes of
    the schema are the [tfsdk] tags of the fields of
    [secretsDataSourceModel], no tag is used twice, and no attribute is
    required or optional, so none can be set in a configuration. *)
Theorem Schema_matches_model (resp : SchemaResponse)
    (m : secretsDataSourceModel) :
  NoDup (tfsdk_fields m).*1 ∧
  dom (schema.Attributes (Schema_ (Schema resp)))
    = list_to_set (tfsdk_fields m).*1 ∧
  map_Forall
    (λ _ a, schema.Required (schema.fields a) = false ∧
            schema.Optional (schema.fields a) = false)
    (schema.Attributes (Schema_ (Schema resp))).
Proof.
  split; [by apply (bool_decide_unpack _); vm_compute|].
  split; [by apply (bool_decide_unpack _); vm_compute|].
  by apply (bool_decide_unpack _); vm_compute.
Qed.

Section schema_and_create.
Context `{!Collaborators}.

(** X5. After a run of [Create] that reports no error, the record in the
    state has a known value under every attribute of the schema: one of
    the three key encodings under an attribute marked sensitive, one of
    the three derived values (address, BLS public key, peer identifier)
    under the others; and each key encoding is under some attribute
    marked sensitive. *)
Theorem Create_fills_schema (ctx : context_Context) (req : CreateRequest)
    (sresp : SchemaResponse) (resp resp' : Response) (w w' : World)
    (r : option ()) :
  Create ctx req (resp, w) = (r, (resp', w')) →
  HasError (Diagnostics resp') = false →
  ∃ val, State resp' = (State_Set ctx (State resp) val).1 ∧
    (∀ name a,
       schema.Attributes (Schema_ (Schema sresp)) !! name = Some a →
       ∃ v, (name, v) ∈ tfsdk_fields val ∧ is_known v ∧
            v ∈ (if schema.IsSensitive a
                 then secret_values w else public_values w)) ∧
    (∀ v, v ∈ secret_values w →
       ∃ name a,
         schema.Attributes (Schema_ (Schema sresp)) !! name = Some a ∧
         schema.IsSensitive a = true ∧ (name, v) ∈ tfsdk_fields val).
Proof.
  intros Hrun Hok.
  create_cases ctx req resp w Hrun; simpl in Hok;
    try by rewrite HasError_AddError in Hok.
  eexists. split.
  { lazymatch goal with
    | Hset : State_Set _ _ _ = _ |- _ => by rewrite Hset
    end. }
  unfold secret_values, public_values, keys_drawn. use_draws.
  repeat lazymatch goal with
    | Hderived : ?t = Ok _ |- context [?t] => rewrite Hderived
    end.
  split.
  - intros name a Hlookup. apply (Schema_attribute_cases sresp) in Hlookup.
    repeat (apply elem_of_cons in Hlookup as [Hcase|Hlookup];
            [ injection Hcase as -> ->; eexists;
              split; [in_list|]; split; [exact I|in_list]
            | ]).
    by apply elem_of_nil in Hlookup.
  - intros v Hv.
    repeat (apply elem_of_cons in Hv as [->|Hv];
            [ eexists _, _; split; [|split; [|in_list]];
              [ vm_compute; reflexivity | reflexivity ]
            | ]).
    by apply elem_of_nil in Hv.
Qed.

End schema_and_create.

(** ** Stored bytes, failing steps and type names *)

Lemma AddError_clean (ds : diag.Diagnostics) (summary detail : string) :
  HasError ds = false →
  AddError ds summary detail = ds ++ [NewErrorDiagnostic summary detail].
Proof.
  intros Hclean. unfold AddError. simpl. unfold Contains.
  case_bool_decide as Hin; [|done].
  assert (HasError ds = true) as Herr; [|congruence].
  apply HasError_elem. by eexists.
Qed.

Lemma string_length_app (a b : string) :
  String.length (a +:+ b) = String.length a + String.length b.
Proof. induction a as [|c a IH]; simpl; [done|]. by rewrite IH. Qed.

Lemma string_app_inv_tail (a b t : string) : a +:+ t = b +:+ t → a = b.
Proof.
  revert b. induction a as [|c a IH]; intros [|c' b] Heq; simpl in *.
  - done.
  - apply (f_equal String.length) in Heq.
    rewrite ?string_length_app in Heq. simpl in Heq.
    rewrite ?string_length_app in Heq. lia.
  - apply (f_equal String.length) in Heq.
    rewrite ?string_length_app in Heq. simpl in Heq.
    rewrite ?string_length_app in Heq. lia.
  - injection Heq as -> Heq. f_equal. by apply IH.
Qed.

(** X7. Resource type names tell providers apart: two metadata requests
    get the same type name exactly when they carry the same provider type
    name, whatever the responses handed in; the type name is eight
    characters longer than the provider's. *)
Theorem Metadata_type_name_injective (req1 req2 : MetadataRequest)
    (resp1 resp2 : MetadataResponse) :
  (TypeName (Metadata req1 resp1) = TypeName (Metadata req2 resp2) ↔
     ProviderTypeName req1 = ProviderTypeName req2) ∧
  String.length (TypeName (Metadata req1 resp1))
    = String.length (ProviderTypeName req1) + 8.
Proof.
  unfold Metadata. simpl. split; [split|].
  - apply string_app_inv_tail.
  - by intros ->.
  - by rewrite string_length_app.
Qed.

Section record_life.
Context `{!Collaborators}.

(** X6. The keys are stored byte for byte: after a run of [Create] that
    reports no error, converting the stored [validator_key_encoded],
    [validator_bls_key_encoded], [network_key_encoded] and [bls_pubkey]
    back to bytes gives the encodings the three generators returned and
    the public-key bytes derived from the BLS secret. *)
Theorem Create_stores_bytes_exactly (ctx : context_Context)
    (req : CreateRequest) (resp resp' : Response) (w w' : World)
    (r : option ()) :
  Create ctx req (resp, w) = (r, (resp', w')) →
  HasError (Diagnostics resp') = false →
  ∃ val validatorKey validatorKeyEncoded blsSecretKey blsSecretKeyEncoded
    libp2pKey libp2pKeyEncoded pubkeyBytes,
    State resp' = (State_Set ctx (State resp) val).1 ∧
    keys_drawn w
      = (Ok (validatorKey, validatorKeyEncoded),
         Ok (blsSecretKey, blsSecretKeyEncoded),
         Ok (libp2pKey, libp2pKeyEncoded)) ∧
    crypto_BLSSecretKeyToPubkeyBytes blsSecretKey = Ok pubkeyBytes ∧
    bytes_of (ValidatorKeyEncoded val) = Some validatorKeyEncoded ∧
    bytes_of (ValidatorBLSKeyEncoded val) = Some blsSecretKeyEncoded ∧
    bytes_of (NetworkKeyEncoded val) = Some libp2pKeyEncoded ∧
    bytes_of (BLSPubkey val) = Some pubkeyBytes.
Proof.
  intros Hrun Hok.
  create_cases ctx req resp w Hrun; simpl in Hok;
    try by rewrite HasError_AddError in Hok.
  eexists _, _, _, _, _, _, _, _. split.
  { lazymatch goal with
    | Hset : State_Set _ _ _ = _ |- _ => by rewrite Hset
    end. }
  split; [unfold keys_drawn; use_draws; reflexivity|].
  split; [eassumption|].
  simpl. by rewrite !String.list_byte_of_string_of_list_byte.
Qed.

(** X8. The diagnostic of a failed step tells which step it was: when two
    runs of [Create] on the same response, which reports no error, each
    have a step that returned an error and end with the same
    diagnostics, the two steps are the same call and the two errors have
    the same message. *)
Theorem Create_diagnostic_identifies_step (ctx : context_Context)
    (req1 req2 : CreateRequest) (resp resp1 resp2 : Response)
    (w1 w1' w2 w2' : World) (r1 r2 : option ()) (ev1 ev2 : Event)
    (err1 err2 : error) :
  HasError (Diagnostics resp) = false →
  Create ctx req1 (resp, w1) = (r1, (resp1, w1')) →
  Create ctx req2 (resp, w2) = (r2, (resp2, w2')) →
  ev1 ∈ new_events w1 w1' → ev_error ev1 = Some err1 →
  ev2 ∈ new_events w2 w2' → ev_error ev2 = Some err2 →
  Diagnostics resp1 = Diagnostics resp2 →
  ev_call ev1 = ev_call ev2 ∧ Error err1 = Error err2.
Proof.
  intros Hclean Hrun1 Hrun2 Hin1 Herr1 Hin2 Herr2 Hsame.
  create_cases ctx req1 resp w1 Hrun1; rewrite new_events_advanced in Hin1;
    which_event Hin1 Herr1;
    create_cases ctx req2 resp w2 Hrun2; rewrite new_events_advanced in Hin2;
    which_event Hin2 Herr2;
    simpl in Hsame; rewrite !AddError_clean in Hsame by done;
    apply app_inj_tail in Hsame as [_ Hsame];
    by injection Hsame.
Qed.

End record_life.

(** ** Further runs on scripted collaborators *)

(** A warning already in the response survives a run in which the BLS
    generator fails. *)
Lemma Create_keeps_diagnostics_witness :
  {| Severity_ := SeverityWarning; Summary := "Deprecated"; Detail := "attribute" |}
    ∈ Diagnostics
        (@Create (Scripted.collaborators (Scripted.failing CallGenerateBLS)) ()
           (Scripted.request _ [])
           (@Build_Response
              (Scripted.collaborators (Scripted.failing CallGenerateBLS))
              None ()
              [{| Severity_ := SeverityWarning; Summary := "Deprecated";
                  Detail := "attribute" |}],
            Scripted.boot _ 1)).2.1.
Proof.
  refine (proj1
            (@Create_keeps_diagnostics
               (Scripted.collaborators (Scripted.failing CallGenerateBLS))
               () (Scripted.request _ [])
               (@Build_Response
                  (Scripted.collaborators (Scripted.failing CallGenerateBLS))
                  None ()
                  [{| Severity_ := SeverityWarning; Summary := "Deprecated";
                      Detail := "attribute" |}])
               _ (Scripted.boot _ 1) _ _ eq_refl) _ _).
  apply list_elem_of_here.
Defined.

(** A run in which every step succeeds: private data and log untouched,
    between one and seven calls. *)
Lemma Create_frame_witness :
  Private (Scripted.created Scripted.happy 1).2.1
    = Private (Scripted.fresh Scripted.happy) ∧
  log (Scripted.created Scripted.happy 1).2.2
    = log (Scripted.boot Scripted.happy 1) ∧
  history (Scripted.boot Scripted.happy 1)
    `prefix_of` history (Scripted.created Scripted.happy 1).2.2 ∧
  1 ≤ length (new_events (Scripted.boot Scripted.happy 1)
                (Scripted.created Scripted.happy 1).2.2) ≤ 7.
Proof.
  exact (@Create_frame (Scripted.collaborators Scripted.happy)
           () (Scripted.request _ []) (Scripted.fresh _) _
           (Scripted.boot _ 1) _ _ eq_refl).
Defined.

(** The write reports a warning only: the run ends without error. *)
Lemma Create_tolerates_warnings_witness :
  (Scripted.created Scripted.write_warned 1).1 = Some () ∧
  HasError (Diagnostics (Scripted.created Scripted.write_warned 1).2.1) = false.
Proof.
  destruct (@Create_tolerates_warnings
              (Scripted.collaborators Scripted.write_warned)
              () (Scripted.request _ []) (Scripted.fresh _) _
              (Scripted.boot _ 1) _ _ eq_refl eq_refl)
    as (val & _ & _ & Hwarn).
  - apply (bool_decide_unpack _). vm_compute. exact I.
  - destruct (Hwarn eq_refl) as (Hend & Hok & _). split; assumption.
Defined.

(** Every step succeeds: each attribute of the schema has its value. *)
Lemma Create_fills_schema_witness :
  ∃ val,
    State (Scripted.created Scripted.happy 1).2.1
      = (@State_Set (Scripted.collaborators Scripted.happy) ()
           (State (Scripted.fresh Scripted.happy)) val).1 ∧
    (∀ name a,
       schema.Attributes (Schema_ (Schema Scripted.blank_schema)) !! name
         = Some a →
       ∃ v, (name, v) ∈ tfsdk_fields val ∧ is_known v ∧
            v ∈ (if schema.IsSensitive a
                 then secret_values (Scripted.boot Scripted.happy 1)
                 else public_values (Scripted.boot Scripted.happy 1))) ∧
    (∀ v, v ∈ secret_values (Scripted.boot Scripted.happy 1) →
       ∃ name a,
         schema.Attributes (Schema_ (Schema Scripted.blank_schema)) !! name
           = Some a ∧
         schema.IsSensitive a = true ∧ (name, v) ∈ tfsdk_fields val).
Proof.
  exact (@Create_fills_schema (Scripted.collaborators Scripted.happy)
           () (Scripted.request _ []) Scripted.blank_schema
           (Scripted.fresh _) _ (Scripted.boot _ 1) _ _ eq_refl eq_refl).
Defined.

(** Every step succeeds: the stored strings give back the bytes. *)
Lemma Create_stores_bytes_exactly_witness :
  ∃ val validatorKey validatorKeyEncoded blsSecretKey blsSecretKeyEncoded
    libp2pKey libp2pKeyEncoded pubkeyBytes,
    State (Scripted.created Scripted.happy 1).2.1
      = (@State_Set (Scripted.collaborators Scripted.happy) ()
           (State (Scripted.fresh Scripted.happy)) val).1 ∧
    @keys_drawn (Scripted.collaborators Scripted.happy)
      (Scripted.boot Scripted.happy 1)
      = (Ok (validatorKey, validatorKeyEncoded),
         Ok (blsSecretKey, blsSecretKeyEncoded),
         Ok (libp2pKey, libp2pKeyEncoded)) ∧
    @crypto_BLSSecretKeyToPubkeyBytes (Scripted.collaborators Scripted.happy)
      blsSecretKey = Ok pubkeyBytes ∧
    bytes_of (ValidatorKeyEncoded val) = Some validatorKeyEncoded ∧
    bytes_of (ValidatorBLSKeyEncoded val) = Some blsSecretKeyEncoded ∧
    bytes_of (NetworkKeyEncoded val) = Some libp2pKeyEncoded ∧
    bytes_of (BLSPubkey val) = Some pubkeyBytes.
Proof.
  exact (@Create_stores_bytes_exactly (Scripted.collaborators Scripted.happy)
           () (Scripted.request _ []) (Scripted.fresh _) _
           (Scripted.boot _ 1) _ _ eq_refl eq_refl).
Defined.

(** Two runs, from different states of the random source, in which the
    BLS generator fails: same diagnostics, same step. *)
Lemma Create_diagnostic_identifies_step_witness :
  ev_call (failed CallGenerateBLS (errors_New "no entropy"))
    = ev_call (failed CallGenerateBLS (errors_New "no entropy")) ∧
  Error (errors_New "no entropy") = Error (errors_New "no entropy").
Proof.
  apply (@Create_diagnostic_identifies_step
           (Scripted.collaborators (Scripted.failing CallGenerateBLS))
           () (Scripted.request _ []) (Scripted.request _ [("seed", "5")])
           (Scripted.fresh _) _ _
           (Scripted.boot _ 1) _ (Scripted.boot _ 5) _ _ _
           (failed CallGenerateBLS (errors_New "no entropy"))
           (failed CallGenerateBLS (errors_New "no entropy"))
           (errors_New "no entropy") (errors_New "no entropy")
           eq_refl eq_refl eq_refl).
  - vm_compute. apply list_elem_of_further, list_elem_of_here.
  - reflexivity.
  - vm_compute. apply list_elem_of_further, list_elem_of_here.
  - reflexivity.
  - reflexivity.
Defined.
